(** * cloudns_sdk: the ClouDNS API client ([cloudns_sdk/api.py])

    A shallow embedding of the class [ClouDNSAPI] and of the requests it
    hands to its HTTP transport.  Python dictionaries are finite maps over
    string keys, lists of tuples are lists of pairs, exceptions are an
    error type, and the calls made on the [requests] module are recorded in
    a log that is threaded through every operation. *)

From Stdlib Require Import ZArith String List QArith Lqa.
From stdpp Require Import base option gmap strings list fin_maps.

Open Scope string_scope.
Open Scope list_scope.

(** ** Python values *)

(** The values that flow through the client: [None], strings, integers,
    booleans, instances (by their attributes) and dictionaries. *)
#[warnings="-register-all"] Inductive value : Type :=
  | VNone
  | VStr (s : string)
  | VInt (n : Z)
  | VBool (b : bool)
  | VObject (attrs : list (string * value))
  | VDict (d : gmap string value).

(** Python truth value testing ([if x:], [x or y]). *)
Definition truthy (v : value) : bool :=
  match v with
  | VNone => false
  | VStr s => negb (String.eqb s "")
  | VInt n => negb (Z.eqb n 0)
  | VBool b => b
  | VObject _ => true
  | VDict d => negb (Nat.eqb (size d) 0)
  end.

(** [x is not None] *)
Definition is_not_None (v : value) : bool :=
  match v with VNone => false | _ => true end.

(** [hash(x)] is defined for everything here but dictionaries. *)
Definition hashable (v : value) : bool :=
  match v with VDict _ => false | _ => true end.

(** What [requests] accepts as [params=] or [data=]: a mapping, or a list
    of key/value tuples (used for repeated keys such as [ns[]]). *)
Inductive params : Type :=
  | PDict (d : gmap string value)
  | PList (l : list (string * value)).

Definition params_truthy (p : params) : bool :=
  match p with
  | PDict d => negb (Nat.eqb (size d) 0)
  | PList l => negb (Nat.eqb (length l) 0)
  end.

(** The key/value fields a parameter set carries. *)
Definition items (p : params) : list (string * value) :=
  match p with
  | PDict d => map_to_list d
  | PList l => l
  end.

(** The values a parameter set holds under a key, in order. *)
Definition getlist (k : string) (p : params) : list value :=
  match p with
  | PDict d => option_list (d !! k)
  | PList l => map snd (List.filter (fun kv => String.eqb (fst kv) k) l)
  end.

(** [x or {}] *)
Definition or_empty (p : option params) : params :=
  match p with
  | Some p => if params_truthy p then p else PDict ∅
  | None => PDict ∅
  end.

(** ** Dictionaries, sets and [dict.update] *)

(** A dictionary built entry by entry ([{k: v for k, v in l}]): a later
    entry replaces an earlier one under the same key. *)
Definition dict_of (l : list (string * value)) : gmap string value :=
  foldl (fun d kv => <[kv.1 := kv.2]> d) ∅ l.

(** The argument [_auth_params] merges into the credentials: a dictionary,
    or a set (the elements of a set, in iteration order). *)
Inductive additional : Type :=
  | AddDict (d : gmap string value)
  | AddSet (elts : list value).

Definition additional_truthy (a : additional) : bool :=
  match a with
  | AddDict d => negb (Nat.eqb (size d) 0)
  | AddSet elts => negb (Nat.eqb (length elts) 0)
  end.

(** ** Parsed JSON, responses, exceptions *)

#[warnings="-register-all"] Inductive json : Type :=
  | JNull
  | JBool (b : bool)
  | JNum (n : Z)
  | JStr (s : string)
  | JArr (l : list json)
  | JObj (l : list (string * json)).

Inductive exn : Type :=
  | ValueError (msg : string)
  | TypeError (msg : string)
  | ClouDNSAPIException (body : json)
  | JSONDecodeError
  | RequestException (msg : string).

Inductive result (A : Type) : Type :=
  | Ok (a : A)
  | Err (e : exn).
Arguments Ok {A} a.
Arguments Err {A} e.

Definition is_Ok {A} (r : result A) : Prop :=
  match r with Ok _ => True | Err _ => False end.

(** A set display [{e1, ..., en}] hashes every element, and a dictionary
    has no hash.  (The displays of this module have one element, so the
    merging of equal elements is left out.) *)
Definition set_display (elts : list value) : result (list value) :=
  if forallb hashable elts then Ok elts
  else Err (TypeError "unhashable type: 'dict'").

(** [dict.update] from an iterable takes each element as a key/value
    sequence of length two; of the values here only a two-character string
    is one.  (A dictionary is never an element of a set.) *)
Definition as_pair (e : value) : result (string * value) :=
  match e with
  | VStr (String k (String v EmptyString)) =>
      Ok (String k EmptyString, VStr (String v EmptyString))
  | VStr _ => Err (ValueError "dictionary update sequence element has the wrong length; 2 is required")
  | _ => Err (TypeError "cannot convert dictionary update sequence element to a sequence")
  end.

Fixpoint update_from_seq (d : gmap string value) (elts : list value)
    : result (gmap string value) :=
  match elts with
  | [] => Ok d
  | e :: rest =>
      match as_pair e with
      | Ok (k, v) => update_from_seq (<[k := v]> d) rest
      | Err x => Err x
      end
  end.

(** [d.update(other)]: the entries of [other] replace those of [d]. *)
Definition dict_update (d : gmap string value) (other : additional)
    : result (gmap string value) :=
  match other with
  | AddDict o => Ok (o ∪ d)
  | AddSet elts => update_from_seq d elts
  end.

(** A [requests.Response]: its [status_code] and the outcome of
    [response.json()], which raises on a body that is not JSON. *)
Record response : Type := Response {
  status_code : Z;
  response_json : result json
}.

(** A call on the transport: [requests.get(url, params=...)] or
    [requests.post(url, data=...)]. *)
Inductive http_call : Type :=
  | HttpGet (url : string) (query : params)
  | HttpPost (url : string) (body : params).

(** ** Computations that may raise and that call the transport *)

(** The state is the log of transport calls made so far, oldest first; an
    exception leaves the log as it was when it was raised. *)
Definition M (A : Type) : Type := list http_call -> result A * list http_call.

Definition ret {A} (a : A) : M A := fun log => (Ok a, log).
Definition raise {A} (e : exn) : M A := fun log => (Err e, log).
Definition bind {A B} (m : M A) (k : A -> M B) : M B :=
  fun log =>
    match m log with
    | (Ok a, log') => k a log'
    | (Err e, log') => (Err e, log')
    end.
Definition lift {A} (r : result A) : M A := fun log => (r, log).

Notation "'do' x <- m ; k" := (bind m (fun x => k))
  (at level 10, x name, m at level 100, k at level 200).

(** The calls an operation makes when started with an empty log. *)
Definition sent {A} (m : M A) : list http_call := snd (m []).

(** ** The client *)

Record ClouDNSAPI : Type := {
  auth_id : value;
  auth_password : value
}.

Definition BASE_URL : string := "https://api.cloudns.net".
Definition RATE_LIMIT_PER_SECOND : Z := 20.

Section Client.

(** The HTTP transport ([requests.get], [requests.post]): it answers a
    call with a response, or raises. *)
Variable transport : http_call -> result response.

Definition requests_get (url : string) (query : params) : M response :=
  fun log => (transport (HttpGet url query), log ++ [HttpGet url query]).

Definition requests_post (url : string) (body : params) : M response :=
  fun log => (transport (HttpPost url body), log ++ [HttpPost url body]).

(** The body of [make_request].  Its decorator [@rate_limited], which
    delays a call before running it, is modelled apart in [RateLimit]. *)
Definition make_request (endpoint : string) (method : string)
    (params data : option params) : M json :=
  let url := BASE_URL +:+ "/" +:+ endpoint in
  let params := or_empty params in
  do response <- (if String.eqb method "GET" then requests_get url params
                  else if String.eqb method "POST" then requests_post url (or_empty data)
                  else raise (ValueError "Unsupported HTTP method"));
  if negb (Z.eqb (status_code response) 200) then
    do body <- lift (response_json response);
    raise (ClouDNSAPIException body)
  else
    lift (response_json response).

(** The validation collaborator [validations.validate]: whether a record's
    parameter set is valid, and the error detail as it prints. *)
Variable validate : gmap string value -> bool * string.

Definition _auth_params (self : ClouDNSAPI) (additional_params : option additional)
    : result (gmap string value) :=
  let params : gmap string value :=
    {[ "auth-id" := auth_id self; "auth-password" := auth_password self ]} in
  match additional_params with
  | Some a => if additional_truthy a then dict_update params a else Ok params
  | None => Ok params
  end.

Definition login (self : ClouDNSAPI) : M json :=
  let params : gmap string value :=
    {[ "auth-id" := auth_id self; "auth-password" := auth_password self ]} in
  make_request "login/login.json" "POST" None (Some (PDict params)).

Definition get_current_ip (self : ClouDNSAPI) : M json :=
  do params <- lift (_auth_params self None);
  make_request "ip/get-my-ip.json" "GET" (Some (PDict params)) None.

Definition get_account_balance (self : ClouDNSAPI) : M json :=
  do params <- lift (_auth_params self None);
  make_request "account/get-balance.json" "GET" (Some (PDict params)) None.

Definition get_available_name_servers (self : ClouDNSAPI) (detailed_info : value) : M json :=
  do params <- lift (_auth_params self (Some (AddDict {[ "detailed-info" := detailed_info ]})));
  make_request "dns/available-name-servers.json" "GET" (Some (PDict params)) None.

(** The parameter list [register_domain_zone] builds; [ns] is [None] or a
    list of name servers. *)
Definition register_domain_zone_params (self : ClouDNSAPI) (domain_name zone_type : value)
    (ns : option (list value)) (master_ip : value) : list (string * value) :=
  let params := [ ("auth-id", auth_id self);
                  ("auth-password", auth_password self);
                  ("domain-name", domain_name);
                  ("zone-type", zone_type) ] in
  let params :=
    match ns with
    | Some ((_ :: _) as servers) => params ++ map (fun ns_server => ("ns[]", ns_server)) servers
    | _ => params
    end in
  if truthy master_ip then params ++ [("master-ip", master_ip)] else params.

Definition register_domain_zone (self : ClouDNSAPI) (domain_name zone_type : value)
    (ns : option (list value)) (master_ip : value) : M json :=
  let params := register_domain_zone_params self domain_name zone_type ns master_ip in
  make_request "dns/register.json" "POST" (Some (PList params)) None.

Definition delete_domain_zone (self : ClouDNSAPI) (domain_name : value) : M json :=
  let params : gmap string value :=
    {[ "auth-id" := auth_id self;
       "auth-password" := auth_password self;
       "domain-name" := domain_name ]} in
  make_request "dns/delete.json" "POST" (Some (PDict params)) None.

Definition list_zones (self : ClouDNSAPI)
    (page rows_per_page search group_id has_cloud_domains : value) : M json :=
  do params <- lift (_auth_params self (Some (AddDict
    {[ "page" := page;
       "rows-per-page" := rows_per_page;
       "search" := search;
       "group-id" := group_id;
       "has-cloud-domains" := has_cloud_domains ]})));
  make_request "dns/list-zones.json" "GET" (Some (PDict params)) None.

Definition get_pages_count (self : ClouDNSAPI)
    (rows_per_page search group_id has_cloud_domains : value) : M json :=
  do params <- lift (_auth_params self (Some (AddDict
    {[ "rows-per-page" := rows_per_page;
       "search" := search;
       "group-id" := group_id;
       "has-cloud-domains" := has_cloud_domains ]})));
  make_request "dns/get-pages-count.json" "GET" (Some (PDict params)) None.

Definition get_zones_stats (self : ClouDNSAPI) : M json :=
  do params <- lift (_auth_params self None);
  make_request "dns/get-zones-stats.json" "GET" (Some (PDict params)) None.

Definition get_zone_info (self : ClouDNSAPI) (domain_name : value) : M json :=
  do params <- lift (_auth_params self (Some (AddDict {[ "domain-name" := domain_name ]})));
  make_request "dns/get-zone-info.json" "GET" (Some (PDict params)) None.

Definition update_zone (self : ClouDNSAPI) (domain_name : value) : M json :=
  do params <- lift (_auth_params self (Some (AddDict {[ "domain-name" := domain_name ]})));
  make_request "dns/update-zone.json" "POST" (Some (PDict params)) None.

Definition get_update_status (self : ClouDNSAPI) (domain_name : value) : M json :=
  do params <- lift (_auth_params self (Some (AddDict {[ "domain-name" := domain_name ]})));
  make_request "dns/update-status.json" "GET" (Some (PDict params)) None.

Definition is_updated (self : ClouDNSAPI) (domain_name : value) : M json :=
  do params <- lift (_auth_params self (Some (AddDict {[ "domain-name" := domain_name ]})));
  make_request "dns/is-updated.json" "GET" (Some (PDict params)) None.

Definition change_zone_status (self : ClouDNSAPI) (domain_name status : value) : M json :=
  do params <- lift (_auth_params self (Some (AddDict
    {[ "domain-name" := domain_name; "status" := status ]})));
  make_request "dns/change-status.json" "POST" (Some (PDict params)) None.

Definition get_records_stats (self : ClouDNSAPI) : M json :=
  do params <- lift (_auth_params self None);
  make_request "dns/get-records-stats.json" "GET" (Some (PDict params)) None.

Definition get_record (self : ClouDNSAPI) (domain_name record_id : value) : M json :=
  do params <- lift (_auth_params self (Some (AddDict
    {[ "domain-name" := domain_name; "record-id" := record_id ]})));
  make_request "dns/get-record.json" "GET" (Some (PDict params)) None.

Definition list_records (self : ClouDNSAPI)
    (domain_name host host_like record_type rows_per_page page order_by : value) : M json :=
  do params <- lift (_auth_params self (Some (AddDict
    {[ "domain-name" := domain_name;
       "host" := host;
       "host-like" := host_like;
       "type" := record_type;
       "rows-per-page" := rows_per_page;
       "page" := page;
       "order-by" := order_by ]})));
  make_request "dns/records.json" "GET" (Some (PDict params)) None.

Definition get_records_pages_count (self : ClouDNSAPI)
    (domain_name host record_type rows_per_page : value) : M json :=
  do params <- lift (_auth_params self (Some (AddDict
    {[ "domain-name" := domain_name;
       "host" := host;
       "type" := record_type;
       "rows-per-page" := rows_per_page ]})));
  make_request "dns/get-records-pages-count.json" "GET" (Some (PDict params)) None.

(** The instance as a value, as [locals()] holds it under [self]. *)
Definition self_value (self : ClouDNSAPI) : value :=
  VObject [ ("auth_id", auth_id self); ("auth_password", auth_password self) ].

(** [{key: value for key, value in locals().items()
      if key != 'kwargs' and value is not None}] *)
Definition gather (locals : list (string * value)) : gmap string value :=
  dict_of (List.filter
    (fun kv => negb (String.eqb kv.1 "kwargs") && is_not_None kv.2) locals).

(** [record_data] of [add_record], after [record_data.update(kwargs)]. *)
Definition add_record_data (self : ClouDNSAPI)
    (domain_name record_type record host ttl : value)
    (kwargs : gmap string value) : gmap string value :=
  let locals := [ ("self", self_value self);
                  ("domain_name", domain_name);
                  ("record_type", record_type);
                  ("record", record);
                  ("host", host);
                  ("ttl", ttl);
                  ("kwargs", VDict kwargs) ] in
  kwargs ∪ gather locals.

Definition add_record (self : ClouDNSAPI)
    (domain_name record_type record host ttl : value)
    (kwargs : gmap string value) : M json :=
  let record_data := add_record_data self domain_name record_type record host ttl kwargs in
  let '(valid, error) := validate record_data in
  if valid then
    do arg <- lift (set_display [VDict record_data]);
    do params <- lift (_auth_params self (Some (AddSet arg)));
    make_request "dns/add-record.json" "POST" None (Some (PDict params))
  else
    raise (ValueError ("Error: " +:+ error)).

Definition delete_record (self : ClouDNSAPI) (domain_name record_id : value) : M json :=
  do params <- lift (_auth_params self (Some (AddDict
    {[ "domain-name" := domain_name; "record-id" := record_id ]})));
  make_request "dns/delete-record.json" "POST" (Some (PDict params)) None.

(** [record_data] of [modify_record], after [record_data.update(kwargs)]. *)
Definition modify_record_data (self : ClouDNSAPI)
    (domain_name record_id host record ttl : value)
    (kwargs : gmap string value) : gmap string value :=
  let locals := [ ("self", self_value self);
                  ("domain_name", domain_name);
                  ("record_id", record_id);
                  ("host", host);
                  ("record", record);
                  ("ttl", ttl);
                  ("kwargs", VDict kwargs) ] in
  kwargs ∪ gather locals.

Definition modify_record (self : ClouDNSAPI)
    (domain_name record_id host record ttl : value)
    (kwargs : gmap string value) : M json :=
  let record_data := modify_record_data self domain_name record_id host record ttl kwargs in
  let '(valid, error) := validate record_data in
  if valid then
    do arg <- lift (set_display [VDict record_data]);
    do params <- lift (_auth_params self (Some (AddSet arg)));
    make_request "dns/mod-record.json" "POST" None (Some (PDict params))
  else
    raise (ValueError ("Error: " +:+ error)).

Definition copy_records (self : ClouDNSAPI)
    (domain_name from_domain delete_current_records : value) : M json :=
  do params <- lift (_auth_params self (Some (AddDict
    {[ "domain-name" := domain_name;
       "from-domain" := from_domain;
       "delete-current-records" := VInt (if truthy delete_current_records then 1 else 0) ]})));
  make_request "dns/copy-records.json" "POST" (Some (PDict params)) None.

(** The parameter list [import_records] builds; [record_types] is [None]
    or a list of record types. *)
Definition import_records_params (self : ClouDNSAPI)
    (domain_name format content delete_exisiting_records : value)
    (record_types : option (list value)) : list (string * value) :=
  let params := [ ("auth-id", auth_id self);
                  ("auth-password", auth_password self);
                  ("domain-name", domain_name);
                  ("format", format);
                  ("content", content) ] in
  let params :=
    match record_types with
    | Some ((_ :: _) as types) => params ++ map (fun type => ("record-types[]", type)) types
    | _ => params
    end in
  if truthy delete_exisiting_records
  then params ++ [("delete-existing-records", VInt 1)]
  else params ++ [("delete-existing-records", VInt 0)].

Definition import_records (self : ClouDNSAPI)
    (domain_name format content delete_exisiting_records : value)
    (record_types : option (list value)) : M json :=
  let params := import_records_params self domain_name format content
                  delete_exisiting_records record_types in
  make_request "dns/records-import.json" "POST" (Some (PList params)) None.

End Client.

(** ** The rate limiter *)

Module RateLimit.

Local Open Scope Q_scope.

(** Modelled from the spec: the module [rate_limit] with the decorator
    [rate_limited] is not among the sources.  Per limited operation the
    limiter keeps the minimum interval between calls, one over the
    configured calls per second, and the time at which the last call was
    permitted; times are in seconds. *)
Record limiter : Type := {
  min_interval : Q;
  last_call : option Q
}.

(** Modelled from the spec: [rate_limited], not among the sources, fixes
    the rate at decoration time; no call has been permitted yet. *)
Definition rate_limited (calls_per_second : Q) : limiter :=
  {| min_interval := 1 / calls_per_second; last_call := None |}.

(** Modelled from the spec: one invocation of the wrapper that
    [rate_limited] returns, which is not among the sources.  At time [now]
    it computes the time elapsed since the last permitted call; if that is
    less than the minimum interval it suspends the caller for the remaining
    time, and the call then proceeds; the time at which it proceeds is
    recorded as the last call.  [overrun] is how much longer than asked the
    suspension lasted. *)
Definition permit (l : limiter) (now overrun : Q) : Q * limiter :=
  let start :=
    match last_call l with
    | None => now
    | Some last =>
        let elapsed := now - last in
        if negb (Qle_bool (min_interval l) elapsed)
        then now + (min_interval l - elapsed) + overrun
        else now
    end in
  (start, {| min_interval := min_interval l; last_call := Some start |}).

(** The times at which consecutive invocations, each with its time of
    invocation and the overrun of its suspension, are permitted. *)
Fixpoint starts (l : limiter) (calls : list (Q * Q)) : list Q :=
  match calls with
  | [] => []
  | (now, overrun) :: rest =>
      let '(start, l') := permit l now overrun in
      start :: starts l' rest
  end.

(** The limiter of [make_request]: [@rate_limited(RATE_LIMIT_PER_SECOND)]. *)
Definition make_request_limiter : limiter :=
  rate_limited (inject_Z RATE_LIMIT_PER_SECOND).

(** Consecutive times are at least [interval] apart. *)
Inductive spaced (interval : Q) : list Q -> Prop :=
  | spaced_nil : spaced interval []
  | spaced_one t : spaced interval [t]
  | spaced_cons t1 t2 ts :
      t1 + interval <= t2 -> spaced interval (t2 :: ts) ->
      spaced interval (t1 :: t2 :: ts).

End RateLimit.

(** ** Sample inputs *)

Definition client : ClouDNSAPI :=
  {| auth_id := VStr "1234"; auth_password := VStr "secret" |}.

(** A transport that answers every call with status 200. *)
Definition transport_ok : http_call -> result response :=
  fun _ => Ok (Response 200 (Ok (JObj [("status", JStr "Success")]))).

(** A transport that answers every call with status 400 and the error
    body [{"status": "Failed", "statusDescription": "Invalid auth"}]. *)
Definition invalid_auth_body : json :=
  JObj [("status", JStr "Failed"); ("statusDescription", JStr "Invalid auth")].

Definition invalid_auth : response := Response 400 (Ok invalid_auth_body).

Definition transport_invalid_auth : http_call -> result response :=
  fun _ => Ok invalid_auth.

(** Validation collaborators that accept, and that reject, everything. *)
Definition validate_accept : gmap string value -> bool * string :=
  fun _ => (true, "").


(** Three invocations: at 0 s, at 0.01 s, and at 0.2 s. *)
Definition three_calls : list (Q * Q) :=
  [ (0, 0); (1 # 100, 0); (1 # 5, 1 # 1000) ]%Q.

(** A transport that cannot connect, and one that answers with status 502
    and a body that is not JSON. *)
Definition transport_down : http_call -> result response :=
  fun _ => Err (RequestException "connection refused").

Definition bad_gateway : response := Response 502 (Err JSONDecodeError).

Definition transport_bad_gateway : http_call -> result response :=
  fun _ => Ok bad_gateway.

(** * Properties *)

(** ** The monad and [make_request] *)

Lemma sent_bind_Ok {A B} (a : A) (k : A -> M B) :
  sent (do x <- lift (Ok a); k x) = sent (k a).
Proof. reflexivity. Qed.

Lemma bind_lift_Ok {A B} (a : A) (k : A -> M B) log :
  (do x <- lift (Ok a); k x) log = k a log.
Proof. reflexivity. Qed.

Lemma bind_lift_Err {A B} (e : exn) (k : A -> M B) log :
  (do x <- lift (Err e); k x) log = (Err e, log).
Proof. reflexivity. Qed.

(** The transport calls [make_request] makes: one GET with the query
    parameters, one POST with the data, or none. *)
Lemma make_request_calls transport endpoint method params data log :
  snd (make_request transport endpoint method params data log) =
  if String.eqb method "GET"
  then log ++ [HttpGet (BASE_URL +:+ "/" +:+ endpoint) (or_empty params)]
  else if String.eqb method "POST"
  then log ++ [HttpPost (BASE_URL +:+ "/" +:+ endpoint) (or_empty data)]
  else log.
Proof.
  unfold make_request, bind, requests_get, requests_post, raise, lift.
  destruct (String.eqb method "GET"); [|destruct (String.eqb method "POST")];
    cbn [fst snd]; try reflexivity;
    (destruct (transport _) as [r|x]; [|reflexivity];
     destruct (negb _); [destruct (response_json r)|]; reflexivity).
Qed.

(** What [make_request] returns once the transport has answered. *)
Lemma make_request_answer (response : response) :
  forall log,
  fst ((if negb (Z.eqb (status_code response) 200)
        then do body <- lift (response_json response); raise (ClouDNSAPIException body)
        else lift (response_json response)) log) =
  match response_json response with
  | Ok body => if Z.eqb (status_code response) 200 then Ok body
               else Err (ClouDNSAPIException body)
  | Err e => Err e
  end.
Proof.
  intros log. unfold bind, lift, raise.
  destruct (Z.eqb (status_code response) 200), (response_json response); reflexivity.
Qed.

Lemma or_empty_items (data : params) :
  items (or_empty (Some data)) = items data
  /\ (or_empty (Some data) = data
      \/ or_empty (Some data) = PDict ∅ /\ items data = []).
Proof.
  unfold or_empty. destruct (params_truthy data) eqn:Ht.
  - split; [reflexivity | left; reflexivity].
  - assert (items data = []) as Hnil.
    { destruct data as [d|l]; cbn in *.
      - apply negb_false_iff, Nat.eqb_eq, map_size_empty_iff in Ht. subst d.
        apply map_to_list_empty.
      - apply negb_false_iff, Nat.eqb_eq in Ht. destruct l; [reflexivity|discriminate]. }
    split; [| right; split; [reflexivity | exact Hnil]].
    rewrite Hnil. cbn. apply map_to_list_empty.
Qed.

(** ** [_auth_params] *)

Lemma auth_params_None self :
  _auth_params self None
  = Ok {[ "auth-id" := auth_id self; "auth-password" := auth_password self ]}.
Proof. reflexivity. Qed.

Lemma auth_params_dict self (d : gmap string value) :
  size d <> 0%nat ->
  _auth_params self (Some (AddDict d))
  = Ok (d ∪ {[ "auth-id" := auth_id self; "auth-password" := auth_password self ]}).
Proof.
  intros Hd. unfold _auth_params, additional_truthy.
  apply Nat.eqb_neq in Hd. rewrite Hd. reflexivity.
Qed.

(** Runs an operation up to its transport call. *)
Ltac run_operation :=
  unfold sent;
  repeat first
    [ rewrite auth_params_None
    | rewrite auth_params_dict by (vm_compute; discriminate)
    | rewrite bind_lift_Ok ];
  rewrite make_request_calls; cbn [String.eqb Ascii.eqb Bool.eqb app];
  try reflexivity.

(** ** Credentials *)

(** The GET operations and [login] do hand the credentials to the
    transport. *)
Lemma get_zone_info_sends_credentials transport self domain_name :
  exists query,
    sent (get_zone_info transport self domain_name)
    = [HttpGet "https://api.cloudns.net/dns/get-zone-info.json" (PDict query)]
    /\ query !! "auth-id" = Some (auth_id self)
    /\ query !! "auth-password" = Some (auth_password self).
Proof.
  eexists. split; [unfold get_zone_info; run_operation |].
  split; reflexivity.
Qed.

Lemma login_sends_credentials transport self :
  exists body,
    sent (login transport self)
    = [HttpPost "https://api.cloudns.net/login/login.json" (PDict body)]
    /\ body !! "auth-id" = Some (auth_id self)
    /\ body !! "auth-password" = Some (auth_password self).
Proof.
  eexists. split; [unfold login; run_operation |].
  split; reflexivity.
Qed.

(** C1 (fails on the code): every operation is to hand [auth-id] and
    [auth-password] to the transport, in the body when it dispatches with
    POST.  [delete_domain_zone] puts both into [params], which a POST
    does not send: the body the transport receives has no field at all,
    so neither credential is in it. *)
Theorem delete_domain_zone_sends_no_credentials transport self domain_name :
  exists body,
    sent (delete_domain_zone transport self domain_name)
    = [HttpPost "https://api.cloudns.net/dns/delete.json" body]
    /\ items body = []
    /\ getlist "auth-id" body = []
    /\ getlist "auth-password" body = [].
Proof.
  exists (PDict ∅). split; [unfold delete_domain_zone; run_operation |].
  repeat split; reflexivity.
Qed.

(** ** The body of a POST *)

(** C2: a POST sends [data] as its body, the empty mapping when [data] is
    [None] (an empty [data] is sent as the empty mapping too, which has the
    same fields: none), whatever [params] is; the POST operations that
    pass their parameters as [params] therefore send an empty body. *)
Theorem make_request_post_body transport endpoint params data log :
  (exists body,
     snd (make_request transport endpoint "POST" params data log)
     = log ++ [HttpPost (BASE_URL +:+ "/" +:+ endpoint) body]
     /\ match data with
        | None => body = PDict ∅
        | Some d => items body = items d
                    /\ (body = d \/ body = PDict ∅ /\ items d = [])
        end)
  /\ (forall params',
        make_request transport endpoint "POST" params' data log
        = make_request transport endpoint "POST" params data log)
  /\ (forall self domain_name zone_type ns master_ip,
        sent (register_domain_zone transport self domain_name zone_type ns master_ip)
        = [HttpPost "https://api.cloudns.net/dns/register.json" (PDict ∅)])
  /\ (forall self domain_name,
        sent (delete_domain_zone transport self domain_name)
        = [HttpPost "https://api.cloudns.net/dns/delete.json" (PDict ∅)])
  /\ (forall self domain_name,
        sent (update_zone transport self domain_name)
        = [HttpPost "https://api.cloudns.net/dns/update-zone.json" (PDict ∅)])
  /\ (forall self domain_name status,
        sent (change_zone_status transport self domain_name status)
        = [HttpPost "https://api.cloudns.net/dns/change-status.json" (PDict ∅)])
  /\ (forall self domain_name record_id,
        sent (delete_record transport self domain_name record_id)
        = [HttpPost "https://api.cloudns.net/dns/delete-record.json" (PDict ∅)])
  /\ (forall self domain_name from_domain delete_current_records,
        sent (copy_records transport self domain_name from_domain delete_current_records)
        = [HttpPost "https://api.cloudns.net/dns/copy-records.json" (PDict ∅)])
  /\ (forall self domain_name format content delete_exisiting_records record_types,
        sent (import_records transport self domain_name format content
                delete_exisiting_records record_types)
        = [HttpPost "https://api.cloudns.net/dns/records-import.json" (PDict ∅)]).
Proof.
  split.
  { exists (or_empty data). split.
    - rewrite make_request_calls. reflexivity.
    - destruct data as [d|]; [apply or_empty_items | reflexivity]. }
  split.
  { intros params'. reflexivity. }
  repeat split; intros.
  - unfold register_domain_zone. run_operation.
  - unfold delete_domain_zone. run_operation.
  - unfold update_zone. run_operation.
  - unfold change_zone_status. run_operation.
  - unfold delete_record. run_operation.
  - unfold copy_records. run_operation.
  - unfold import_records. run_operation.
Qed.

(** ** Status codes and unsupported methods *)

(** C3: when the transport answers a GET or a POST with a JSON body,
    [make_request] returns that body if the status is 200 and raises
    [ClouDNSAPIException] carrying it otherwise; it returns exactly when
    the status is 200. *)
Theorem make_request_status transport endpoint method params data log r body :
  (method = "GET"
   /\ transport (HttpGet (BASE_URL +:+ "/" +:+ endpoint) (or_empty params)) = Ok r)
  \/ (method = "POST"
      /\ transport (HttpPost (BASE_URL +:+ "/" +:+ endpoint) (or_empty data)) = Ok r) ->
  response_json r = Ok body ->
  let res := fst (make_request transport endpoint method params data log) in
  (status_code r = 200%Z -> res = Ok body)
  /\ (status_code r <> 200%Z -> res = Err (ClouDNSAPIException body))
  /\ (is_Ok res <-> status_code r = 200%Z).
Proof.
  intros Hcall Hjson res.
  assert (res = if Z.eqb (status_code r) 200 then Ok body
                else Err (ClouDNSAPIException body)) as ->.
  { subst res. unfold make_request.
    destruct Hcall as [[-> Ht] | [-> Ht]];
      cbn [String.eqb Ascii.eqb Bool.eqb];
      unfold bind at 1; unfold requests_get, requests_post; rewrite Ht;
      rewrite make_request_answer, Hjson; reflexivity. }
  destruct (Z.eqb_spec (status_code r) 200) as [E|N].
  - repeat split; intros; try reflexivity; try exact I; congruence.
  - repeat split; intros; try congruence; try contradiction.
Qed.

Lemma make_request_status_witness :
  response_json invalid_auth = Ok invalid_auth_body
  /\ fst (make_request transport_invalid_auth "dns/list-zones.json" "GET" None None [])
     = Err (ClouDNSAPIException invalid_auth_body).
Proof.
  split; [reflexivity |].
  refine (proj1 (proj2 (make_request_status transport_invalid_auth
            "dns/list-zones.json" "GET" None None [] invalid_auth invalid_auth_body
            _ _)) _).
  - left. split; reflexivity.
  - reflexivity.
  - discriminate.
Defined.

(** A body that is not JSON makes [response.json()] raise, whatever the
    status: the failure is passed on as it is. *)
Lemma make_request_json_failure transport endpoint params log r e :
  transport (HttpGet (BASE_URL +:+ "/" +:+ endpoint) (or_empty params)) = Ok r ->
  response_json r = Err e ->
  fst (make_request transport endpoint "GET" params None log) = Err e.
Proof.
  intros Ht Hjson. unfold make_request. cbn [String.eqb Ascii.eqb Bool.eqb].
  unfold bind at 1. unfold requests_get. rewrite Ht.
  rewrite make_request_answer, Hjson. reflexivity.
Qed.

(** C4: a method other than GET and POST raises [ValueError] and leaves
    the log of transport calls as it was. *)
Theorem make_request_unsupported_method transport endpoint method params data log :
  method <> "GET" -> method <> "POST" ->
  make_request transport endpoint method params data log
  = (Err (ValueError "Unsupported HTTP method"), log).
Proof.
  intros Hget Hpost. unfold make_request.
  apply String.eqb_neq in Hget, Hpost. rewrite Hget, Hpost. reflexivity.
Qed.

Lemma make_request_unsupported_method_witness :
  "PUT" <> "GET" /\ "PUT" <> "POST"
  /\ make_request transport_ok "dns/list-zones.json" "PUT" None None []
     = (Err (ValueError "Unsupported HTTP method"), []).
Proof.
  split; [discriminate |]. split; [discriminate |].
  apply (make_request_unsupported_method transport_ok "dns/list-zones.json" "PUT");
    discriminate.
Defined.

(** ** [add_record] and [modify_record] *)

(** A dictionary cannot be put in a set. *)
Lemma set_display_dict (d : gmap string value) :
  set_display [VDict d] = Err (TypeError "unhashable type: 'dict'").
Proof. reflexivity. Qed.

(** The gathered set leaves out an argument that is [None], unless the
    keyword arguments bring the key back. *)
Lemma add_record_data_omits_None self domain_name record_type host ttl
    (kwargs : gmap string value) :
  kwargs !! "record" = None ->
  add_record_data self domain_name record_type VNone host ttl kwargs !! "record" = None.
Proof.
  intros Hk. unfold add_record_data. rewrite lookup_union, Hk.
  unfold gather. cbn [List.filter String.eqb Ascii.eqb Bool.eqb negb andb is_not_None fst snd].
  destruct domain_name, record_type, host, ttl; reflexivity.
Qed.

(** The gathered set holds the named arguments that are not [None] and
    the keyword arguments. *)
Lemma add_record_data_holds self domain_name record_type record host ttl
    (kwargs : gmap string value) k v :
  kwargs !! k = Some v ->
  add_record_data self domain_name record_type record host ttl kwargs !! k = Some v.
Proof.
  intros Hk. unfold add_record_data. rewrite lookup_union, Hk.
  destruct (gather _ !! k); reflexivity.
Qed.

(** C5 (fails on the code): once the validation accepts the gathered set,
    [add_record] and [modify_record] are to POST it with the credentials
    and return the response.  They wrap the set in a set display first,
    [{record_data}], which raises [TypeError]: nothing is handed to the
    transport and nothing is returned. *)
Theorem add_record_valid_raises_TypeError transport validate self
    domain_name record_type record_id record host ttl kwargs log :
  fst (validate (add_record_data self domain_name record_type record host ttl kwargs)) = true ->
  fst (validate (modify_record_data self domain_name record_id host record ttl kwargs)) = true ->
  add_record transport validate self domain_name record_type record host ttl kwargs log
  = (Err (TypeError "unhashable type: 'dict'"), log)
  /\ modify_record transport validate self domain_name record_id host record ttl kwargs log
     = (Err (TypeError "unhashable type: 'dict'"), log).
Proof.
  intros Hadd Hmod. unfold add_record, modify_record.
  destruct (validate (add_record_data _ _ _ _ _ _ _)) as [valid error].
  destruct (validate (modify_record_data _ _ _ _ _ _ _)) as [valid' error'].
  cbn in Hadd, Hmod. subst valid valid'.
  rewrite !set_display_dict, !bind_lift_Err. split; reflexivity.
Qed.

Lemma add_record_valid_raises_TypeError_witness :
  fst (validate_accept (add_record_data client (VStr "example.com") (VStr "A")
         (VStr "192.0.2.1") (VStr "") (VInt 3600) ∅)) = true
  /\ add_record transport_ok validate_accept client (VStr "example.com") (VStr "A")
       (VStr "192.0.2.1") (VStr "") (VInt 3600) ∅ []
     = (Err (TypeError "unhashable type: 'dict'"), []).
Proof.
  split; [reflexivity |].
  refine (proj1 (add_record_valid_raises_TypeError transport_ok validate_accept client
            (VStr "example.com") (VStr "A") (VInt 7) (VStr "192.0.2.1") (VStr "")
            (VInt 3600) ∅ [] _ _)); reflexivity.
Defined.



(** ** Arguments left unset *)



(** ** The domain name *)

(** The GET operations hand the domain name to the transport as given. *)
Lemma domain_name_sent_by_get transport self domain_name :
  (exists query,
     sent (get_zone_info transport self domain_name)
     = [HttpGet "https://api.cloudns.net/dns/get-zone-info.json" (PDict query)]
     /\ query !! "domain-name" = Some domain_name)
  /\ (exists query,
        sent (get_update_status transport self domain_name)
        = [HttpGet "https://api.cloudns.net/dns/update-status.json" (PDict query)]
        /\ query !! "domain-name" = Some domain_name)
  /\ (exists query,
        sent (is_updated transport self domain_name)
        = [HttpGet "https://api.cloudns.net/dns/is-updated.json" (PDict query)]
        /\ query !! "domain-name" = Some domain_name)
  /\ (forall record_id, exists query,
        sent (get_record transport self domain_name record_id)
        = [HttpGet "https://api.cloudns.net/dns/get-record.json" (PDict query)]
        /\ query !! "domain-name" = Some domain_name)
  /\ (forall host host_like record_type rows_per_page page order_by, exists query,
        sent (list_records transport self domain_name host host_like record_type
                rows_per_page page order_by)
        = [HttpGet "https://api.cloudns.net/dns/records.json" (PDict query)]
        /\ query !! "domain-name" = Some domain_name)
  /\ (forall host record_type rows_per_page, exists query,
        sent (get_records_pages_count transport self domain_name host record_type
                rows_per_page)
        = [HttpGet "https://api.cloudns.net/dns/get-records-pages-count.json" (PDict query)]
        /\ query !! "domain-name" = Some domain_name).
Proof.
  repeat split; intros; eexists.
  - split; [unfold get_zone_info; run_operation | reflexivity].
  - split; [unfold get_update_status; run_operation | reflexivity].
  - split; [unfold is_updated; run_operation | reflexivity].
  - split; [unfold get_record; run_operation | reflexivity].
  - split; [unfold list_records; run_operation | reflexivity].
  - split; [unfold get_records_pages_count; run_operation | reflexivity].
Qed.

(** C8 (fails on the code): an operation taking a domain name is to
    deliver [domain-name], equal to its argument, to the transport.
    [update_zone] and [delete_domain_zone] put it into [params], which a
    POST does not send: the body delivered holds nothing under
    [domain-name]. *)
Theorem update_zone_sends_no_domain_name transport self domain_name :
  (exists body,
     sent (update_zone transport self domain_name)
     = [HttpPost "https://api.cloudns.net/dns/update-zone.json" body]
     /\ getlist "domain-name" body = [])
  /\ (exists body,
        sent (delete_domain_zone transport self domain_name)
        = [HttpPost "https://api.cloudns.net/dns/delete.json" body]
        /\ getlist "domain-name" body = []).
Proof.
  split; exists (PDict ∅).
  - split; [unfold update_zone; run_operation | reflexivity].
  - split; [unfold delete_domain_zone; run_operation | reflexivity].
Qed.

(** ** [import_records] *)

Lemma getlist_app k (l1 l2 : list (string * value)) :
  getlist k (PList (l1 ++ l2)) = getlist k (PList l1) ++ getlist k (PList l2).
Proof. unfold getlist. rewrite List.filter_app, List.map_app. reflexivity. Qed.

Lemma getlist_repeated_key k (vs : list value) :
  getlist k (PList (map (fun v => (k, v)) vs)) = vs.
Proof.
  unfold getlist. induction vs as [|v vs IH]; [reflexivity|].
  cbn [map List.filter fst]. rewrite String.eqb_refl. cbn [map snd].
  f_equal. exact IH.
Qed.

Lemma getlist_other_key k k' (vs : list value) :
  k' <> k ->
  getlist k (PList (map (fun v => (k', v)) vs)) = [].
Proof.
  intros Hk. apply String.eqb_neq in Hk.
  unfold getlist. induction vs as [|v vs IH]; [reflexivity|].
  cbn [map List.filter fst]. rewrite Hk. exact IH.
Qed.

(** C9: the parameter list [import_records] builds holds the record types
    under [record-types[]], one entry each, in the order given, and the
    delete flag as the integer 1 for [True] and 0 for [False]. *)
Theorem import_records_params_record_types self domain_name format content :
  (forall delete_exisiting_records record_types,
     getlist "record-types[]"
       (PList (import_records_params self domain_name format content
                 delete_exisiting_records (Some record_types)))
     = record_types)
  /\ (forall b record_types,
        getlist "delete-existing-records"
          (PList (import_records_params self domain_name format content
                    (VBool b) record_types))
        = [VInt (if b then 1 else 0)])
  /\ import_records_params self domain_name format content (VBool false)
       (Some [VStr "A"; VStr "AAAA"])
     = [ ("auth-id", auth_id self); ("auth-password", auth_password self);
         ("domain-name", domain_name); ("format", format); ("content", content);
         ("record-types[]", VStr "A"); ("record-types[]", VStr "AAAA");
         ("delete-existing-records", VInt 0) ].
Proof.
  split; [| split; [| reflexivity]].
  - intros flag types. unfold import_records_params.
    destruct types as [|t types]; [destruct (truthy flag); reflexivity |].
    destruct (truthy flag); rewrite !getlist_app, getlist_repeated_key;
      cbn; rewrite app_nil_r; reflexivity.
  - intros b types. unfold import_records_params.
    destruct types as [[|t types]|]; [destruct b; reflexivity | | destruct b; reflexivity].
    destruct b; cbn [truthy]; rewrite !getlist_app, getlist_other_key by discriminate;
      reflexivity.
Qed.

(** ** The rate limiter *)

Module RateLimitFacts.
Import RateLimit.

Local Open Scope Q_scope.

Lemma permit_interval l now overrun :
  min_interval (snd (permit l now overrun)) = min_interval l.
Proof. reflexivity. Qed.

Lemma permit_last_call l now overrun :
  last_call (snd (permit l now overrun)) = Some (fst (permit l now overrun)).
Proof. reflexivity. Qed.

(** A call is permitted no sooner than one interval after the last. *)
Lemma permit_after_last l now overrun last :
  0 <= overrun ->
  last_call l = Some last ->
  last + min_interval l <= fst (permit l now overrun).
Proof.
  intros Ho Hl. unfold permit. rewrite Hl. cbn [fst].
  destruct (Qle_bool (min_interval l) (now - last)) eqn:E; cbn [negb].
  - apply Qle_bool_iff in E. lra.
  - lra.
Qed.

Lemma starts_spaced calls :
  forall l,
  Forall (fun c => 0 <= snd c) calls ->
  spaced (min_interval l) (starts l calls)
  /\ (forall last t, last_call l = Some last ->
        head (starts l calls) = Some t -> last + min_interval l <= t).
Proof.
  induction calls as [|[now overrun] rest IH]; intros l Hall.
  - split; [constructor | intros ? ? _ [=]].
  - apply Forall_cons in Hall as [Ho Hrest]. cbn [snd] in Ho.
    cbn [starts].
    destruct (permit l now overrun) as [start l'] eqn:Ep.
    assert (min_interval l' = min_interval l) as Hi
      by (rewrite <- (permit_interval l now overrun), Ep; reflexivity).
    assert (last_call l' = Some start) as Hl'
      by (pose proof (permit_last_call l now overrun) as H; rewrite Ep in H; exact H).
    destruct (IH l' Hrest) as [Hsp Hhd]. rewrite Hi in Hsp, Hhd.
    split.
    + destruct (starts l' rest) as [|t2 ts] eqn:Es; [constructor|].
      constructor; [apply (Hhd start t2 Hl'); reflexivity | exact Hsp].
    + intros last t Hl [= <-].
      pose proof (permit_after_last l now overrun last Ho Hl) as H.
      rewrite Ep in H. exact H.
Qed.

Lemma spaced_lookup interval ts :
  spaced interval ts ->
  forall i t1 t2, ts !! i = Some t1 -> ts !! S i = Some t2 -> t1 + interval <= t2.
Proof.
  induction 1 as [|t|a b ts Hab Hsp IH]; intros i t1 t2 H1 H2.
  - discriminate.
  - destruct i; discriminate.
  - destruct i as [|i].
    + cbn in H1, H2. injection H1 as <-. injection H2 as <-. exact Hab.
    + exact (IH i t1 t2 H1 H2).
Qed.

Lemma spaced_span interval ts :
  spaced interval ts ->
  forall t1 tn, head ts = Some t1 -> last ts = Some tn ->
  (inject_Z (Z.of_nat (length ts)) - 1) * interval <= tn - t1.
Proof.
  induction 1 as [|t|a b ts Hab Hsp IH]; intros t1 tn H1 Hn.
  - discriminate.
  - cbn in H1, Hn. injection H1 as <-. injection Hn as <-.
    change (inject_Z (Z.of_nat (length [t]))) with 1. lra.
  - cbn in H1. injection H1 as <-.
    change (last (a :: b :: ts)) with (last (b :: ts)) in Hn.
    specialize (IH b tn eq_refl Hn).
    change (length (a :: b :: ts)) with (S (length (b :: ts))).
    rewrite Nat2Z.inj_succ, <- Z.add_1_r, inject_Z_plus.
    change (inject_Z 1) with 1. lra.
Qed.

(** C10: two consecutive invocations of a rate-limited operation are
    permitted at least [1 / rate] seconds apart, for [make_request] at
    least 1/20 second, and from the first to the last of N consecutive
    invocations at least [(N - 1) / rate] seconds pass. *)
Theorem rate_limited_spacing rate calls :
  Forall (fun c => 0 <= snd c) calls ->
  (forall i t1 t2,
     starts (rate_limited rate) calls !! i = Some t1 ->
     starts (rate_limited rate) calls !! S i = Some t2 ->
     t1 + 1 / rate <= t2)
  /\ (forall i t1 t2,
        starts make_request_limiter calls !! i = Some t1 ->
        starts make_request_limiter calls !! S i = Some t2 ->
        t1 + (1 # 20) <= t2)
  /\ (forall t1 tn,
        head (starts (rate_limited rate) calls) = Some t1 ->
        last (starts (rate_limited rate) calls) = Some tn ->
        (inject_Z (Z.of_nat (length (starts (rate_limited rate) calls))) - 1) / rate
        <= tn - t1).
Proof.
  intros Hall.
  destruct (starts_spaced calls (rate_limited rate) Hall) as [Hsp _].
  destruct (starts_spaced calls make_request_limiter Hall) as [Hsp20 _].
  cbn [rate_limited min_interval] in Hsp.
  split; [exact (spaced_lookup _ _ Hsp) |].
  split.
  - intros i t1 t2 H1 H2.
    pose proof (spaced_lookup _ _ Hsp20 i t1 t2 H1 H2) as H.
    change (min_interval make_request_limiter) with (1 / inject_Z 20) in H.
    assert (1 / inject_Z 20 == 1 # 20) as E by reflexivity.
    rewrite E in H. exact H.
  - intros t1 tn H1 Hn.
    pose proof (spaced_span _ _ Hsp t1 tn H1 Hn) as H.
    unfold Qdiv in *. lra.
Qed.

Lemma rate_limited_spacing_witness :
  Forall (fun c => 0 <= snd c) three_calls
  /\ length (starts make_request_limiter three_calls) = 3%nat
  /\ (forall i t1 t2,
        starts make_request_limiter three_calls !! i = Some t1 ->
        starts make_request_limiter three_calls !! S i = Some t2 ->
        t1 + (1 # 20) <= t2).
Proof.
  assert (Forall (fun c => 0 <= snd c) three_calls) as Hall.
  { repeat constructor; discriminate. }
  split; [exact Hall |]. split; [reflexivity |].
  exact (proj1 (proj2 (rate_limited_spacing 20 three_calls Hall))).
Defined.

End RateLimitFacts.

(** * Further properties of the client *)

(** ** [_auth_params] *)

(** X1: [_auth_params] never fails on a dictionary; an entry of the
    additional parameters is in the result as given, also under [auth-id]
    or [auth-password], where it replaces the credential; every other key
    is as in the credentials.  Without additional parameters the result
    is the two credentials. *)
Theorem auth_params_merges self (d : gmap string value) :
  (exists merged,
     _auth_params self (Some (AddDict d)) = Ok merged
     /\ forall k,
          merged !! k
          = match d !! k with
            | Some v => Some v
            | None =>
                ({[ "auth-id" := auth_id self;
                    "auth-password" := auth_password self ]} : gmap string value) !! k
            end)
  /\ _auth_params self None
     = Ok {[ "auth-id" := auth_id self; "auth-password" := auth_password self ]}.
Proof.
  split; [| reflexivity].
  destruct (decide (size d = 0%nat)) as [Hz | Hnz].
  - apply map_size_empty_iff in Hz. subst d.
    eexists. split; [reflexivity |]. intros k. rewrite lookup_empty. reflexivity.
  - eexists. split; [apply auth_params_dict; exact Hnz |].
    intros k. rewrite lookup_union.
    destruct (d !! k) as [v|]; destruct (_ !! k); reflexivity.
Qed.

(** ** [make_request] *)

(** X2: a GET makes one call, with [params] as its query (the empty
    mapping when [params] is [None] or empty), and [data] has no effect on
    it. *)
Theorem make_request_get_query transport endpoint params data log :
  (exists query,
     snd (make_request transport endpoint "GET" params data log)
     = log ++ [HttpGet (BASE_URL +:+ "/" +:+ endpoint) query]
     /\ match params with
        | None => query = PDict ∅
        | Some p => items query = items p
                    /\ (query = p \/ query = PDict ∅ /\ items p = [])
        end)
  /\ (forall data',
        make_request transport endpoint "GET" params data' log
        = make_request transport endpoint "GET" params data log).
Proof.
  split; [| intros data'; reflexivity].
  exists (or_empty params). split.
  - rewrite make_request_calls. reflexivity.
  - destruct params as [p|]; [apply or_empty_items | reflexivity].
Qed.

(** X3: an exception of the transport is raised by [make_request] as it
    is; the one call that failed is the only one made. *)
Theorem make_request_transport_failure transport endpoint method params data log e :
  (method = "GET"
   /\ transport (HttpGet (BASE_URL +:+ "/" +:+ endpoint) (or_empty params)) = Err e)
  \/ (method = "POST"
      /\ transport (HttpPost (BASE_URL +:+ "/" +:+ endpoint) (or_empty data)) = Err e) ->
  fst (make_request transport endpoint method params data log) = Err e
  /\ length (snd (make_request transport endpoint method params data log))
     = S (length log).
Proof.
  intros Hcall. split.
  - unfold make_request.
    destruct Hcall as [[-> Ht] | [-> Ht]];
      cbn [String.eqb Ascii.eqb Bool.eqb];
      unfold bind at 1; unfold requests_get, requests_post; rewrite Ht; reflexivity.
  - rewrite make_request_calls.
    destruct Hcall as [[-> _] | [-> _]]; cbn [String.eqb Ascii.eqb Bool.eqb];
      rewrite length_app; cbn [length]; apply Nat.add_1_r.
Qed.

Lemma make_request_transport_failure_witness :
  transport_down (HttpGet (BASE_URL +:+ "/" +:+ "dns/list-zones.json") (or_empty None))
  = Err (RequestException "connection refused")
  /\ fst (make_request transport_down "dns/list-zones.json" "GET" None None [])
     = Err (RequestException "connection refused").
Proof.
  split; [reflexivity |].
  refine (proj1 (make_request_transport_failure transport_down "dns/list-zones.json"
            "GET" None None [] (RequestException "connection refused") _)).
  left. split; reflexivity.
Defined.

(** X4: when the body of the response is not JSON, [make_request] raises
    the decoding error whatever the status is: for a status other than 200
    no [ClouDNSAPIException] is raised. *)
Theorem make_request_decode_failure transport endpoint method params data log r e :
  (method = "GET"
   /\ transport (HttpGet (BASE_URL +:+ "/" +:+ endpoint) (or_empty params)) = Ok r)
  \/ (method = "POST"
      /\ transport (HttpPost (BASE_URL +:+ "/" +:+ endpoint) (or_empty data)) = Ok r) ->
  response_json r = Err e ->
  fst (make_request transport endpoint method params data log) = Err e.
Proof.
  intros Hcall Hjson. unfold make_request.
  destruct Hcall as [[-> Ht] | [-> Ht]];
    cbn [String.eqb Ascii.eqb Bool.eqb];
    unfold bind at 1; unfold requests_get, requests_post; rewrite Ht;
    rewrite make_request_answer, Hjson; reflexivity.
Qed.

Lemma make_request_decode_failure_witness :
  response_json bad_gateway = Err JSONDecodeError
  /\ status_code bad_gateway <> 200%Z
  /\ fst (make_request transport_bad_gateway "dns/update-zone.json" "POST" None None [])
     = Err JSONDecodeError.
Proof.
  split; [reflexivity |]. split; [discriminate |].
  refine (make_request_decode_failure transport_bad_gateway "dns/update-zone.json"
            "POST" None None [] bad_gateway JSONDecodeError _ _).
  - right. split; reflexivity.
  - reflexivity.
Defined.

(** ** What the operations return *)

Lemma make_request_constant r j endpoint method params data log :
  response_json r = Ok j ->
  method = "GET" \/ method = "POST" ->
  fst (make_request (fun _ => Ok r) endpoint method params data log)
  = if Z.eqb (status_code r) 200 then Ok j else Err (ClouDNSAPIException j).
Proof.
  intros Hjson Hm. unfold make_request.
  destruct Hm as [-> | ->]; cbn [String.eqb Ascii.eqb Bool.eqb];
    unfold bind at 1; unfold requests_get, requests_post;
    rewrite make_request_answer, Hjson; reflexivity.
Qed.

(** Runs an operation up to the answer of a transport that gives the same
    response to every call. *)
Ltac run_answer Hjson :=
  repeat first
    [ rewrite auth_params_None
    | rewrite auth_params_dict by (vm_compute; discriminate)
    | rewrite bind_lift_Ok ];
  apply make_request_constant; [exact Hjson | (left; reflexivity) || (right; reflexivity)].

(** X5: over a transport that answers every call with the same response,
    whose body is JSON, every operation but [add_record] and
    [modify_record] returns that body when the status is 200 and raises
    [ClouDNSAPIException] carrying it otherwise, whatever its arguments. *)
Theorem operations_return_the_answer r j log :
  response_json r = Ok j ->
  let transport := fun _ : http_call => Ok r in
  let answer := if Z.eqb (status_code r) 200 then Ok j
                else Err (ClouDNSAPIException j) in
  (forall self, fst (login transport self log) = answer)
  /\ (forall self, fst (get_current_ip transport self log) = answer)
  /\ (forall self, fst (get_account_balance transport self log) = answer)
  /\ (forall self detailed_info,
        fst (get_available_name_servers transport self detailed_info log) = answer)
  /\ (forall self domain_name zone_type ns master_ip,
        fst (register_domain_zone transport self domain_name zone_type ns master_ip log)
        = answer)
  /\ (forall self domain_name,
        fst (delete_domain_zone transport self domain_name log) = answer)
  /\ (forall self page rows_per_page search group_id has_cloud_domains,
        fst (list_zones transport self page rows_per_page search group_id
               has_cloud_domains log) = answer)
  /\ (forall self rows_per_page search group_id has_cloud_domains,
        fst (get_pages_count transport self rows_per_page search group_id
               has_cloud_domains log) = answer)
  /\ (forall self, fst (get_zones_stats transport self log) = answer)
  /\ (forall self domain_name, fst (get_zone_info transport self domain_name log) = answer)
  /\ (forall self domain_name, fst (update_zone transport self domain_name log) = answer)
  /\ (forall self domain_name,
        fst (get_update_status transport self domain_name log) = answer)
  /\ (forall self domain_name, fst (is_updated transport self domain_name log) = answer)
  /\ (forall self domain_name status,
        fst (change_zone_status transport self domain_name status log) = answer)
  /\ (forall self, fst (get_records_stats transport self log) = answer)
  /\ (forall self domain_name record_id,
        fst (get_record transport self domain_name record_id log) = answer)
  /\ (forall self domain_name host host_like record_type rows_per_page page order_by,
        fst (list_records transport self domain_name host host_like record_type
               rows_per_page page order_by log) = answer)
  /\ (forall self domain_name host record_type rows_per_page,
        fst (get_records_pages_count transport self domain_name host record_type
               rows_per_page log) = answer)
  /\ (forall self domain_name record_id,
        fst (delete_record transport self domain_name record_id log) = answer)
  /\ (forall self domain_name from_domain delete_current_records,
        fst (copy_records transport self domain_name from_domain
               delete_current_records log) = answer)
  /\ (forall self domain_name format content delete_exisiting_records record_types,
        fst (import_records transport self domain_name format content
               delete_exisiting_records record_types log) = answer).
Proof.
  intros Hjson transport answer. subst transport answer.
  repeat split; intros.
  - unfold login. run_answer Hjson.
  - unfold get_current_ip. run_answer Hjson.
  - unfold get_account_balance. run_answer Hjson.
  - unfold get_available_name_servers. run_answer Hjson.
  - unfold register_domain_zone. run_answer Hjson.
  - unfold delete_domain_zone. run_answer Hjson.
  - unfold list_zones. run_answer Hjson.
  - unfold get_pages_count. run_answer Hjson.
  - unfold get_zones_stats. run_answer Hjson.
  - unfold get_zone_info. run_answer Hjson.
  - unfold update_zone. run_answer Hjson.
  - unfold get_update_status. run_answer Hjson.
  - unfold is_updated. run_answer Hjson.
  - unfold change_zone_status. run_answer Hjson.
  - unfold get_records_stats. run_answer Hjson.
  - unfold get_record. run_answer Hjson.
  - unfold list_records. run_answer Hjson.
  - unfold get_records_pages_count. run_answer Hjson.
  - unfold delete_record. run_answer Hjson.
  - unfold copy_records. run_answer Hjson.
  - unfold import_records. run_answer Hjson.
Qed.

Lemma operations_return_the_answer_witness :
  response_json invalid_auth = Ok invalid_auth_body
  /\ fst (get_account_balance (fun _ => Ok invalid_auth) client [])
     = Err (ClouDNSAPIException invalid_auth_body)
  /\ fst (delete_record (fun _ => Ok invalid_auth) client (VStr "example.com") (VInt 7) [])
     = Err (ClouDNSAPIException invalid_auth_body).
Proof.
  pose proof (operations_return_the_answer invalid_auth invalid_auth_body [] eq_refl) as H.
  cbv zeta in H.
  split; [reflexivity |]. split.
  - exact (proj1 (proj2 (proj2 H)) client).
  - destruct H as (_&_&_&_&_&_&_&_&_&_&_&_&_&_&_&_&_&_&H&_).
    exact (H client (VStr "example.com") (VInt 7)).
Defined.

(** X6: [add_record] and [modify_record] never return and never call the
    transport, whatever the validation says: they raise an exception and
    leave the log of transport calls as it was. *)
Theorem add_record_never_succeeds transport validate self
    domain_name record_type record_id record host ttl kwargs log :
  (exists e,
     add_record transport validate self domain_name record_type record host ttl kwargs log
     = (Err e, log))
  /\ (exists e,
        modify_record transport validate self domain_name record_id host record ttl
          kwargs log
        = (Err e, log)).
Proof.
  unfold add_record, modify_record.
  destruct (validate (add_record_data _ _ _ _ _ _ _)) as [[|] error];
    destruct (validate (modify_record_data _ _ _ _ _ _ _)) as [[|] error'];
    rewrite ?set_display_dict, ?bind_lift_Err; split; eexists; reflexivity.
Qed.

(** ** The parameter lists *)

(** X7: the list [register_domain_zone] builds holds the name servers
    under [ns[]], one entry each, in the order given, and none for [None];
    it holds [master-ip] when the argument is true (not [None], not
    empty) and no such entry otherwise; the credentials, the domain name
    and the zone type are in it once each, as given. *)
Theorem register_domain_zone_params_entries self domain_name zone_type master_ip :
  (forall servers,
     getlist "ns[]"
       (PList (register_domain_zone_params self domain_name zone_type
                 (Some servers) master_ip))
     = servers)
  /\ getlist "ns[]"
       (PList (register_domain_zone_params self domain_name zone_type None master_ip))
     = []
  /\ (forall ns,
        getlist "master-ip"
          (PList (register_domain_zone_params self domain_name zone_type ns master_ip))
        = if truthy master_ip then [master_ip] else [])
  /\ (forall ns,
        getlist "auth-id"
          (PList (register_domain_zone_params self domain_name zone_type ns master_ip))
        = [auth_id self]
        /\ getlist "auth-password"
             (PList (register_domain_zone_params self domain_name zone_type ns master_ip))
           = [auth_password self]
        /\ getlist "domain-name"
             (PList (register_domain_zone_params self domain_name zone_type ns master_ip))
           = [domain_name]
        /\ getlist "zone-type"
             (PList (register_domain_zone_params self domain_name zone_type ns master_ip))
           = [zone_type]).
Proof.
  assert (forall k ns, k <> "ns[]" ->
            getlist k (PList (register_domain_zone_params self domain_name zone_type
                                ns master_ip))
            = getlist k (PList [ ("auth-id", auth_id self);
                                 ("auth-password", auth_password self);
                                 ("domain-name", domain_name);
                                 ("zone-type", zone_type) ])
              ++ (if truthy master_ip then getlist k (PList [("master-ip", master_ip)])
                  else [])) as Hother.
  { intros k ns Hk. unfold register_domain_zone_params.
    destruct ns as [[|s servers]|]; destruct (truthy master_ip);
      rewrite ?getlist_app, ?getlist_other_key by congruence;
      rewrite ?app_nil_r; reflexivity. }
  split; [| split; [| split]].
  - intros servers. unfold register_domain_zone_params.
    destruct servers as [|s servers]; [destruct (truthy master_ip); reflexivity |].
    destruct (truthy master_ip); rewrite !getlist_app, getlist_repeated_key;
      cbn; rewrite ?app_nil_r; reflexivity.
  - unfold register_domain_zone_params. destruct (truthy master_ip); reflexivity.
  - intros ns. rewrite Hother by discriminate. destruct (truthy master_ip); reflexivity.
  - intros ns. repeat split; rewrite Hother by discriminate;
      destruct (truthy master_ip); reflexivity.
Qed.

(** The list [import_records] builds, laid out. *)
Lemma import_records_params_layout self domain_name format content
    delete_exisiting_records record_types :
  import_records_params self domain_name format content delete_exisiting_records
    record_types
  = [ ("auth-id", auth_id self); ("auth-password", auth_password self);
      ("domain-name", domain_name); ("format", format); ("content", content) ]
    ++ map (fun type => ("record-types[]", type)) (default [] record_types)
    ++ [ ("delete-existing-records",
          VInt (if truthy delete_exisiting_records then 1 else 0)) ].
Proof.
  unfold import_records_params.
  destruct record_types as [[|t types]|]; destruct (truthy delete_exisiting_records);
    cbn [default map app]; rewrite <- ?app_assoc; reflexivity.
Qed.

(** X8: whatever its arguments, the list [import_records] builds holds
    the credentials, the domain name, the format and the content once
    each, as given; the record types under [record-types[]], none for
    [None] as for the empty list; and the delete flag once, 1 for every
    argument that is true (such as a non-empty string) and 0 otherwise.
    It has six entries and one more per record type. *)
Theorem import_records_params_entries self domain_name format content
    delete_exisiting_records record_types :
  let built := import_records_params self domain_name format content
                 delete_exisiting_records record_types in
  getlist "auth-id" (PList built) = [auth_id self]
  /\ getlist "auth-password" (PList built) = [auth_password self]
  /\ getlist "domain-name" (PList built) = [domain_name]
  /\ getlist "format" (PList built) = [format]
  /\ getlist "content" (PList built) = [content]
  /\ getlist "record-types[]" (PList built) = default [] record_types
  /\ getlist "delete-existing-records" (PList built)
     = [VInt (if truthy delete_exisiting_records then 1 else 0)]
  /\ length built = (6 + length (default [] record_types))%nat.
Proof.
  intros built. subst built. rewrite import_records_params_layout.
  repeat split;
    rewrite ?getlist_app, ?getlist_repeated_key, ?getlist_other_key by discriminate;
    try reflexivity.
  - cbn. apply app_nil_r.
  - rewrite !length_app, length_map. cbn [length]. rewrite Nat.add_1_r. reflexivity.
Qed.

(** ** The queries of the GET operations *)

(** X9: every GET operation makes one call, a GET on its own endpoint,
    whose query holds the two credentials of the client and, beside them,
    exactly the keys of the operation. *)
Theorem get_operations_queries transport self :
  (exists query,
     sent (get_current_ip transport self)
     = [HttpGet "https://api.cloudns.net/ip/get-my-ip.json" (PDict query)]
     /\ query !! "auth-id" = Some (auth_id self)
     /\ query !! "auth-password" = Some (auth_password self)
     /\ dom query = {[ "auth-id"; "auth-password" ]})
  /\ (exists query,
        sent (get_account_balance transport self)
        = [HttpGet "https://api.cloudns.net/account/get-balance.json" (PDict query)]
        /\ query !! "auth-id" = Some (auth_id self)
        /\ query !! "auth-password" = Some (auth_password self)
        /\ dom query = {[ "auth-id"; "auth-password" ]})
  /\ (forall detailed_info, exists query,
        sent (get_available_name_servers transport self detailed_info)
        = [HttpGet "https://api.cloudns.net/dns/available-name-servers.json" (PDict query)]
        /\ query !! "auth-id" = Some (auth_id self)
        /\ query !! "auth-password" = Some (auth_password self)
        /\ dom query = {[ "auth-id"; "auth-password"; "detailed-info" ]})
  /\ (forall page rows_per_page search group_id has_cloud_domains, exists query,
        sent (list_zones transport self page rows_per_page search group_id
                has_cloud_domains)
        = [HttpGet "https://api.cloudns.net/dns/list-zones.json" (PDict query)]
        /\ query !! "auth-id" = Some (auth_id self)
        /\ query !! "auth-password" = Some (auth_password self)
        /\ dom query = {[ "auth-id"; "auth-password"; "page"; "rows-per-page";
                          "search"; "group-id"; "has-cloud-domains" ]})
  /\ (forall rows_per_page search group_id has_cloud_domains, exists query,
        sent (get_pages_count transport self rows_per_page search group_id
                has_cloud_domains)
        = [HttpGet "https://api.cloudns.net/dns/get-pages-count.json" (PDict query)]
        /\ query !! "auth-id" = Some (auth_id self)
        /\ query !! "auth-password" = Some (auth_password self)
        /\ dom query = {[ "auth-id"; "auth-password"; "rows-per-page";
                          "search"; "group-id"; "has-cloud-domains" ]})
  /\ (exists query,
        sent (get_zones_stats transport self)
        = [HttpGet "https://api.cloudns.net/dns/get-zones-stats.json" (PDict query)]
        /\ query !! "auth-id" = Some (auth_id self)
        /\ query !! "auth-password" = Some (auth_password self)
        /\ dom query = {[ "auth-id"; "auth-password" ]})
  /\ (forall domain_name, exists query,
        sent (get_zone_info transport self domain_name)
        = [HttpGet "https://api.cloudns.net/dns/get-zone-info.json" (PDict query)]
        /\ query !! "auth-id" = Some (auth_id self)
        /\ query !! "auth-password" = Some (auth_password self)
        /\ dom query = {[ "auth-id"; "auth-password"; "domain-name" ]})
  /\ (forall domain_name, exists query,
        sent (get_update_status transport self domain_name)
        = [HttpGet "https://api.cloudns.net/dns/update-status.json" (PDict query)]
        /\ query !! "auth-id" = Some (auth_id self)
        /\ query !! "auth-password" = Some (auth_password self)
        /\ dom query = {[ "auth-id"; "auth-password"; "domain-name" ]})
  /\ (forall domain_name, exists query,
        sent (is_updated transport self domain_name)
        = [HttpGet "https://api.cloudns.net/dns/is-updated.json" (PDict query)]
        /\ query !! "auth-id" = Some (auth_id self)
        /\ query !! "auth-password" = Some (auth_password self)
        /\ dom query = {[ "auth-id"; "auth-password"; "domain-name" ]})
  /\ (exists query,
        sent (get_records_stats transport self)
        = [HttpGet "https://api.cloudns.net/dns/get-records-stats.json" (PDict query)]
        /\ query !! "auth-id" = Some (auth_id self)
        /\ query !! "auth-password" = Some (auth_password self)
        /\ dom query = {[ "auth-id"; "auth-password" ]})
  /\ (forall domain_name record_id, exists query,
        sent (get_record transport self domain_name record_id)
        = [HttpGet "https://api.cloudns.net/dns/get-record.json" (PDict query)]
        /\ query !! "auth-id" = Some (auth_id self)
        /\ query !! "auth-password" = Some (auth_password self)
        /\ dom query = {[ "auth-id"; "auth-password"; "domain-name"; "record-id" ]})
  /\ (forall domain_name host host_like record_type rows_per_page page order_by,
      exists query,
        sent (list_records transport self domain_name host host_like record_type
                rows_per_page page order_by)
        = [HttpGet "https://api.cloudns.net/dns/records.json" (PDict query)]
        /\ query !! "auth-id" = Some (auth_id self)
        /\ query !! "auth-password" = Some (auth_password self)
        /\ dom query = {[ "auth-id"; "auth-password"; "domain-name"; "host";
                          "host-like"; "type"; "rows-per-page"; "page"; "order-by" ]})
  /\ (forall domain_name host record_type rows_per_page, exists query,
        sent (get_records_pages_count transport self domain_name host record_type
                rows_per_page)
        = [HttpGet "https://api.cloudns.net/dns/get-records-pages-count.json"
             (PDict query)]
        /\ query !! "auth-id" = Some (auth_id self)
        /\ query !! "auth-password" = Some (auth_password self)
        /\ dom query = {[ "auth-id"; "auth-password"; "domain-name"; "host"; "type";
                          "rows-per-page" ]}).
Proof.
  repeat apply conj; intros; eexists.
  - split; [unfold get_current_ip; run_operation | repeat split; reflexivity].
  - split; [unfold get_account_balance; run_operation | repeat split; reflexivity].
  - split; [unfold get_available_name_servers; run_operation | repeat split; reflexivity].
  - split; [unfold list_zones; run_operation | repeat split; reflexivity].
  - split; [unfold get_pages_count; run_operation | repeat split; reflexivity].
  - split; [unfold get_zones_stats; run_operation | repeat split; reflexivity].
  - split; [unfold get_zone_info; run_operation | repeat split; reflexivity].
  - split; [unfold get_update_status; run_operation | repeat split; reflexivity].
  - split; [unfold is_updated; run_operation | repeat split; reflexivity].
  - split; [unfold get_records_stats; run_operation | repeat split; reflexivity].
  - split; [unfold get_record; run_operation | repeat split; reflexivity].
  - split; [unfold list_records; run_operation | repeat split; reflexivity].
  - split; [unfold get_records_pages_count; run_operation | repeat split; reflexivity].
Qed.

(** X10: the GET operations hand their page, row count, record id and
    detail arguments to the transport as given, also a value that counts
    as false such as 0. *)
Theorem get_operations_pass_arguments transport self :
  (forall detailed_info, exists query,
     sent (get_available_name_servers transport self detailed_info)
     = [HttpGet "https://api.cloudns.net/dns/available-name-servers.json" (PDict query)]
     /\ query !! "detailed-info" = Some detailed_info)
  /\ (forall page rows_per_page search group_id has_cloud_domains, exists query,
        sent (list_zones transport self page rows_per_page search group_id
                has_cloud_domains)
        = [HttpGet "https://api.cloudns.net/dns/list-zones.json" (PDict query)]
        /\ query !! "page" = Some page
        /\ query !! "rows-per-page" = Some rows_per_page)
  /\ (forall rows_per_page search group_id has_cloud_domains, exists query,
        sent (get_pages_count transport self rows_per_page search group_id
                has_cloud_domains)
        = [HttpGet "https://api.cloudns.net/dns/get-pages-count.json" (PDict query)]
        /\ query !! "rows-per-page" = Some rows_per_page)
  /\ (forall domain_name record_id, exists query,
        sent (get_record transport self domain_name record_id)
        = [HttpGet "https://api.cloudns.net/dns/get-record.json" (PDict query)]
        /\ query !! "record-id" = Some record_id)
  /\ (forall domain_name host host_like record_type rows_per_page page order_by,
      exists query,
        sent (list_records transport self domain_name host host_like record_type
                rows_per_page page order_by)
        = [HttpGet "https://api.cloudns.net/dns/records.json" (PDict query)]
        /\ query !! "rows-per-page" = Some rows_per_page
        /\ query !! "page" = Some page)
  /\ (forall domain_name host record_type rows_per_page, exists query,
        sent (get_records_pages_count transport self domain_name host record_type
                rows_per_page)
        = [HttpGet "https://api.cloudns.net/dns/get-records-pages-count.json"
             (PDict query)]
        /\ query !! "rows-per-page" = Some rows_per_page).
Proof.
  repeat apply conj; intros; eexists.
  - split; [unfold get_available_name_servers; run_operation | repeat split; reflexivity].
  - split; [unfold list_zones; run_operation | repeat split; reflexivity].
  - split; [unfold get_pages_count; run_operation | repeat split; reflexivity].
  - split; [unfold get_record; run_operation | repeat split; reflexivity].
  - split; [unfold list_records; run_operation | repeat split; reflexivity].
  - split; [unfold get_records_pages_count; run_operation | repeat split; reflexivity].
Qed.

(** X11: [login] makes one call, a POST whose body is the two credentials
    of the client and nothing else, also when they are [None]. *)
Theorem login_posts_credentials transport self :
  exists body,
    sent (login transport self)
    = [HttpPost "https://api.cloudns.net/login/login.json" (PDict body)]
    /\ body !! "auth-id" = Some (auth_id self)
    /\ body !! "auth-password" = Some (auth_password self)
    /\ dom body = {[ "auth-id"; "auth-password" ]}.
Proof.
  eexists. split; [unfold login; run_operation | repeat split; reflexivity].
Qed.

(** ** The set handed to the validation *)


